(** * Configuration resolver and health reporter

    A shallow embedding of [app/config.py] and [app/api/v1/health.py].

    Python [str] values are modelled by [string], read as sequences of code
    points below 256; on that range [str.lower] and [str.strip] are the
    per-character functions written out in [PyStr].  Python dictionaries
    ([os.environ], the mapping parsed from a dotenv file, the JSON document
    of the health endpoint) are insertion-ordered association lists with the
    operations of [Dict]. *)

From Stdlib Require Import String Ascii List ZArith Bool Lia Setoid.
Import ListNotations.
Open Scope string_scope.
Open Scope list_scope.

(** ** Python string methods used by the source *)

Module PyStr.

Definition between (lo hi n : nat) : bool := (lo <=? n)%nat && (n <=? hi)%nat.

(** [str.lower] on one code point: A-Z, and the upper-case letters of the
    Latin-1 block (U+00C0..U+00DE except the multiplication sign). *)
Definition lower_char (c : ascii) : ascii :=
  let n := nat_of_ascii c in
  if between 65 90 n || between 192 214 n || between 216 222 n
  then ascii_of_nat (n + 32) else c.

Fixpoint lower (s : string) : string :=
  match s with
  | EmptyString => EmptyString
  | String c r => String (lower_char c) (lower r)
  end.

(** [str.isspace] on one code point: TAB..CR, FS..US, SPACE, NEL, NBSP. *)
Definition isspace (c : ascii) : bool :=
  let n := nat_of_ascii c in
  between 9 13 n || between 28 32 n || (n =? 133)%nat || (n =? 160)%nat.

Fixpoint lstrip (s : string) : string :=
  match s with
  | EmptyString => EmptyString
  | String c r => if isspace c then lstrip r else s
  end.

Fixpoint rstrip (s : string) : string :=
  match s with
  | EmptyString => EmptyString
  | String c r =>
      match rstrip r with
      | EmptyString => if isspace c then EmptyString else String c EmptyString
      | r' => String c r'
      end
  end.

(** [s.strip()] *)
Definition strip (s : string) : string := rstrip (lstrip s).

(** [s.split(sep)] for a one-character separator: every occurrence cuts,
    so a string with [n] separators yields [n + 1] pieces, [""] yields
    [[""]]. *)
Fixpoint split (sep : ascii) (s : string) : list string :=
  match s with
  | EmptyString => [EmptyString]
  | String c r =>
      if Ascii.eqb c sep then EmptyString :: split sep r
      else match split sep r with
           | piece :: pieces => String c piece :: pieces
           | [] => [String c EmptyString]
           end
  end.

End PyStr.

(** ** Python dictionaries with string keys and values *)

Module Dict.

Definition dict := list (string * string).

(** [d.get(k)] *)
Fixpoint get (k : string) (d : dict) : option string :=
  match d with
  | [] => None
  | (k', v) :: r => if String.eqb k' k then Some v else get k r
  end.

(** [k in d] *)
Definition mem (k : string) (d : dict) : bool :=
  match get k d with Some _ => true | None => false end.

(** [d[k] = v]: an existing key keeps its position, a new key is appended. *)
Fixpoint set (k v : string) (d : dict) : dict :=
  match d with
  | [] => [(k, v)]
  | (k', v') :: r =>
      if String.eqb k' k then (k', v) :: r else (k', v') :: set k v r
  end.

(** [list(d.keys())] *)
Definition keys (d : dict) : list string := map fst d.

(** [dict(pairs)]: a later binding of a key replaces the earlier value. *)
Definition of_pairs (pairs : list (string * string)) : dict :=
  fold_left (fun d kv => set (fst kv) (snd kv) d) pairs [].

(** [{k.lower(): v for k, v in d.items()}] *)
Definition lower_keys (d : dict) : dict :=
  of_pairs (map (fun kv => (PyStr.lower (fst kv), snd kv)) d).

End Dict.

(** ** The process environment and the files the module reads *)

(** [files] gives, for each path that exists on disk, the key/value bindings
    python-dotenv parses from it, in file order; a key written without a
    value is not a binding.  The files covered are those whose values hold
    no reference [${NAME}]: python-dotenv expands such a reference from the
    environment when it reads the file, and that expansion is not part of
    this development. *)
Record World := {
  environ : Dict.dict;
  files : string -> option (list (string * string))
}.

(** [os.getenv(key)] *)
Definition getenv (key : string) (w : World) : option string :=
  Dict.get key (environ w).

(** [os.path.exists(path)] *)
Definition path_exists (path : string) (w : World) : bool :=
  match files w path with Some _ => true | None => false end.

(** One step of python-dotenv's [set_as_environment_variables]:
    [if k in os.environ and not override: continue; os.environ[k] = v]. *)
Definition set_env (override : bool) (env : Dict.dict) (kv : string * string)
  : Dict.dict :=
  if Dict.mem (fst kv) env && negb override then env
  else Dict.set (fst kv) (snd kv) env.

(** [load_dotenv(dotenv_path, override=...)]; a path that is not a file is
    read as an empty stream. *)
Definition load_dotenv (dotenv_path : string) (override : bool) (w : World)
  : World :=
  match files w dotenv_path with
  | Some bindings =>
      {| environ := fold_left (set_env override) (Dict.of_pairs bindings)
                      (environ w);
         files := files w |}
  | None => w
  end.

(** python-dotenv declares [load_dotenv(..., override=False, ...)]. *)
Definition override_default : bool := false.

Definition env_file_map : Dict.dict :=
  [ ("production", ".env.production");
    ("staging", ".env.staging");
    ("test", ".env.test");
    ("development", ".env.local") ].

(** Lines 11 and 21: the runtime selector and the file it selects. *)
Definition env (w : World) : string :=
  match getenv "ENVIRONMENT" w with Some v => v | None => "development" end.

Definition env_file (w : World) : string :=
  match Dict.get (env w) env_file_map with Some f => f | None => ".env" end.

(** Lines 24-28. *)
Definition load_env_files (w : World) : World :=
  if path_exists (env_file w) w
  then load_dotenv (env_file w) override_default w
  else load_dotenv ".env" false w.

(** ** Values and validation errors *)

(** The Python values that reach a field of [Settings]: what a source
    supplies is a [str], what the class declares as a default is [None], a
    [str], an [int] or (for [cors_origins]) a list of [str]. *)
Inductive pyval :=
| PyNone
| PyStr (s : string)
| PyInt (z : Z)
| PyList (l : list string).

(** pydantic's error types, and one line of [ValidationError.errors()]:
    the field it is about and the type of the error. *)
Inductive ErrorType :=
  missing | string_type | int_type | int_parsing | int_parsing_size.

Definition ErrorDetails : Type := string * ErrorType.

(** What pydantic's lax [int] validation makes of a string: the integer it
    reads, or the error it reports, [int_parsing] for a string that is not
    an integer and [int_parsing_size] for one it refuses for its length. *)
Inductive int_reading :=
| IntValue (z : Z)
| IntParsing
| IntParsingSize.

(** Validation collects the errors of every field rather than stopping at
    the first. *)
Inductive validation (A : Type) :=
| Valid (a : A)
| Invalid (errors : list ErrorDetails).

Arguments Valid {A} a.
Arguments Invalid {A} errors.

Definition ap {A B} (vf : validation (A -> B)) (va : validation A)
  : validation B :=
  match vf, va with
  | Valid f, Valid a => Valid (f a)
  | Valid _, Invalid e => Invalid e
  | Invalid e, Valid _ => Invalid e
  | Invalid e1, Invalid e2 => Invalid (e1 ++ e2)
  end.

Notation "vf <*> va" := (ap vf va) (at level 52, left associativity).

Definition errors_of {A} (v : validation A) : list ErrorDetails :=
  match v with Valid _ => [] | Invalid e => e end.

(** ** The settings class *)

Record Settings := {
  supabase_url : string;
  supabase_anon_key : string;
  supabase_service_role_key : string;
  supabase_jwt_secret : string;
  supabase_db_url : option string;
  supabase_db_password : option string;
  supabase_access_token : option string;
  jwt_secret_key : string;
  jwt_algorithm : string;
  jwt_access_token_expire_minutes : Z;
  jwt_refresh_token_expire_days : Z;
  environment : string;
  debug : string;
  api_version : string;
  cors_origins : string;
  media_max_file_size_mb : Z;
  media_max_memory_size_mb : Z;
  media_thumbnail_size : Z;
  media_upload_url_expires_seconds : Z;
  media_access_url_expires_seconds : Z;
  storage_bucket_name : string;
  cloudflare_tunnel_token : option string
}.

(** The fields declared without a default. *)
Definition required_fields : list string :=
  [ "supabase_url"; "supabase_anon_key"; "supabase_service_role_key";
    "supabase_jwt_secret"; "jwt_secret_key" ].

(** [self.debug.lower() == "true"] *)
Definition is_debug (self : Settings) : bool :=
  String.eqb (PyStr.lower (debug self)) "true".

(** [[origin.strip() for origin in self.cors_origins.split(",")]] *)
Definition cors_origins_list (self : Settings) : list string :=
  map PyStr.strip (PyStr.split "," (cors_origins self)).

(** The module globals of [app.config] once it is imported: the default
    that the class body computed for [cors_origins] (line 55) and the
    cached instance [_settings]. *)
Record Globals := {
  cors_origins_default : pyval;
  _settings : option Settings
}.

(** Line 55: [os.getenv("CORS_ORIGINS", [..., ...])], evaluated when the
    class body runs. *)
Definition cors_origins_declared (w : World) : pyval :=
  match getenv "CORS_ORIGINS" w with
  | Some v => PyStr v
  | None => PyList [ "http://localhost:5173, http://localhost:3000";
                     "timelesslove.ai" ]
  end.

(** Importing [app.config]: lines 11-28 change [os.environ], the class body
    fixes the default of [cors_origins], and [_settings] starts as [None]. *)
Definition import_config (w : World) : World * Globals :=
  let w' := load_env_files w in
  (w', {| cors_origins_default := cors_origins_declared w';
          _settings := None |}).

(** ** Field sources of [BaseSettings]

    With [case_sensitive = False] the environment source and the dotenv
    source ([env_file = ".env"]) both look a field up under its lower-cased
    name; the environment has priority over the dotenv file.  The dotenv
    source gets the bindings of [.env] from [files]; for the files covered
    there (no reference to expand) they do not depend on the environment. *)

Definition env_settings (w : World) : Dict.dict :=
  Dict.lower_keys (environ w).

Definition dotenv_settings (w : World) : Dict.dict :=
  match files w ".env" with
  | Some bindings => Dict.lower_keys (Dict.of_pairs bindings)
  | None => []
  end.

Definition field_raw (w : World) (name : string) : option string :=
  match Dict.get name (env_settings w) with
  | Some v => Some v
  | None => Dict.get name (dotenv_settings w)
  end.

Definition validate_str (v : pyval) : ErrorType + string :=
  match v with
  | PyStr s => inr s
  | _ => inl string_type
  end.

Definition validate_optional_str (v : pyval) : ErrorType + option string :=
  match v with
  | PyNone => inr None
  | PyStr s => inr (Some s)
  | _ => inl string_type
  end.

(** One field: the value a source supplies, else the declared default
    ([BaseSettings] sets [validate_default = True], so the default is
    validated like any input), else the error [missing]. *)
Definition field {A} (validate : pyval -> ErrorType + A) (w : World)
  (name : string) (default : option pyval) : validation A :=
  let input := match field_raw w name with
               | Some s => Some (PyStr s)
               | None => default
               end in
  match input with
  | None => Invalid [(name, missing)]
  | Some v => match validate v with
              | inr a => Valid a
              | inl t => Invalid [(name, t)]
              end
  end.

Section Config.

(** What pydantic makes of a string in lax mode. *)
Variable str_as_int : string -> int_reading.

Definition validate_int (v : pyval) : ErrorType + Z :=
  match v with
  | PyInt z => inr z
  | PyStr s => match str_as_int s with
               | IntValue z => inr z
               | IntParsing => inl int_parsing
               | IntParsingSize => inl int_parsing_size
               end
  | _ => inl int_type
  end.

(** [Settings()] *)
Definition Settings_init (g : Globals) (w : World) : validation Settings :=
  Valid Build_Settings
  <*> field validate_str w "supabase_url" None
  <*> field validate_str w "supabase_anon_key" None
  <*> field validate_str w "supabase_service_role_key" None
  <*> field validate_str w "supabase_jwt_secret" None
  <*> field validate_optional_str w "supabase_db_url" (Some PyNone)
  <*> field validate_optional_str w "supabase_db_password" (Some PyNone)
  <*> field validate_optional_str w "supabase_access_token" (Some PyNone)
  <*> field validate_str w "jwt_secret_key" None
  <*> field validate_str w "jwt_algorithm" (Some (PyStr "HS256"))
  <*> field validate_int w "jwt_access_token_expire_minutes" (Some (PyInt 15))
  <*> field validate_int w "jwt_refresh_token_expire_days" (Some (PyInt 7))
  <*> field validate_str w "environment" (Some (PyStr "development"))
  <*> field validate_str w "debug" (Some (PyStr "false"))
  <*> field validate_str w "api_version" (Some (PyStr "v1"))
  <*> field validate_str w "cors_origins" (Some (cors_origins_default g))
  <*> field validate_int w "media_max_file_size_mb" (Some (PyInt 50))
  <*> field validate_int w "media_max_memory_size_mb" (Some (PyInt 200))
  <*> field validate_int w "media_thumbnail_size" (Some (PyInt 400))
  <*> field validate_int w "media_upload_url_expires_seconds"
        (Some (PyInt 300))
  <*> field validate_int w "media_access_url_expires_seconds"
        (Some (PyInt 3600))
  <*> field validate_str w "storage_bucket_name" (Some (PyStr "memories"))
  <*> field validate_optional_str w "cloudflare_tunnel_token" (Some PyNone).

(** [get_settings()]: the result and the module globals after the call.  A
    construction that raises leaves [_settings] at [None]. *)
Definition get_settings (w : World) (g : Globals)
  : validation Settings * Globals :=
  match _settings g with
  | Some s => (Valid s, g)
  | None =>
      match Settings_init g w with
      | Valid s =>
          (Valid s, {| cors_origins_default := cors_origins_default g;
                       _settings := Some s |})
      | Invalid e => (Invalid e, g)
      end
  end.

(** Configuration resolution in a fresh process: the module is imported and
    [get_settings()] is called for the first time. *)
Definition configure (w : World) : validation Settings :=
  let (w', g) := import_config w in fst (get_settings w' g).

(** ** The health endpoint *)

(** An exception raised by the probe: whether it is an instance of
    [Exception] (and not only of [BaseException]) and its [str(e)]. *)
Record exn := {
  is_Exception : bool;
  exn_str : string
}.

(** What lines 32-35 do: the client is obtained and the query returns, or
    one of the calls raises. *)
Inductive outcome := Returned | Raised (e : exn).

(** What a call of [health] does: it returns a document or an exception
    leaves it. *)
Inductive response :=
| Document (doc : Dict.dict)
| ValidationError (errors : list ErrorDetails)
| Propagated (e : exn).

Definition health (w : World) (g : Globals) (probe : outcome)
  : response * Globals :=
  match get_settings w g with
  | (Invalid e, g') => (ValidationError e, g')
  | (Valid settings, g') =>
      let status_response :=
        [ ("status", "healthy");
          ("version", api_version settings);
          ("environment", environment settings) ] in
      match probe with
      | Returned =>
          (Document (Dict.set "database" "connected" status_response), g')
      | Raised e =>
          if is_Exception e
          then (Document
                  (Dict.set "database_error" (exn_str e)
                     (Dict.set "database" "disconnected" status_response)),
                g')
          else (Propagated e, g')
      end
  end.

End Config.


(** ** Sample inputs *)

(** A file system given by the list of its dotenv files. *)
Definition files_of (disk : list (string * list (string * string)))
  (path : string) : option (list (string * string)) :=
  match find (fun entry => String.eqb (fst entry) path) disk with
  | Some entry => Some (snd entry)
  | None => None
  end.

(** A reader of plain decimal numerals of at most 4300 characters, used
    where an example needs an instance of [str_as_int]. *)
Fixpoint digits_value (acc : Z) (s : string) : option Z :=
  match s with
  | EmptyString => Some acc
  | String c r =>
      let n := nat_of_ascii c in
      if PyStr.between 48 57 n
      then digits_value (10 * acc + Z.of_nat (n - 48)) r
      else None
  end.

Definition decimal_int (s : string) : int_reading :=
  if (4300 <? Z.of_nat (String.length s))%Z then IntParsingSize
  else match s with
       | EmptyString => IntParsing
       | _ => match digits_value 0 s with
              | Some z => IntValue z
              | None => IntParsing
              end
       end.

(** The five variables without which construction fails. *)
Definition required_env : Dict.dict :=
  [ ("SUPABASE_URL", "https://project.supabase.co");
    ("SUPABASE_ANON_KEY", "anon");
    ("SUPABASE_SERVICE_ROLE_KEY", "service");
    ("SUPABASE_JWT_SECRET", "jwt");
    ("JWT_SECRET_KEY", "secret") ].

(** Nothing but the required variables, and no dotenv file. *)
Definition required_only_world : World :=
  {| environ := required_env; files := files_of [] |}.

(** A production deployment whose environment already sets [API_VERSION],
    with both [.env.production] and [.env] on disk. *)
Definition production_world : World :=
  {| environ := ("ENVIRONMENT", "production") :: ("API_VERSION", "v0")
                :: ("CORS_ORIGINS", "a, b,c") :: required_env;
     files := files_of
       [ (".env.production", [("API_VERSION", "v2"); ("JWT_ALGORITHM", "HS512")]);
         (".env", [("API_VERSION", "v3"); ("JWT_ALGORITHM", "HS384");
                   ("DEBUG", "True")]) ] |}.

(** The settings of [production_world]. *)
Definition production_settings : Settings :=
  {| supabase_url := "https://project.supabase.co";
     supabase_anon_key := "anon";
     supabase_service_role_key := "service";
     supabase_jwt_secret := "jwt";
     supabase_db_url := None;
     supabase_db_password := None;
     supabase_access_token := None;
     jwt_secret_key := "secret";
     jwt_algorithm := "HS512";
     jwt_access_token_expire_minutes := 15;
     jwt_refresh_token_expire_days := 7;
     environment := "production";
     debug := "True";
     api_version := "v0";
     cors_origins := "a, b,c";
     media_max_file_size_mb := 50;
     media_max_memory_size_mb := 200;
     media_thumbnail_size := 400;
     media_upload_url_expires_seconds := 300;
     media_access_url_expires_seconds := 3600;
     storage_bucket_name := "memories";
     cloudflare_tunnel_token := None |}.

(** A required variable set to the empty string. *)
Definition empty_url_world : World :=
  {| environ := [ ("SUPABASE_URL", ""); ("SUPABASE_ANON_KEY", "anon");
                  ("SUPABASE_SERVICE_ROLE_KEY", "service");
                  ("SUPABASE_JWT_SECRET", "jwt"); ("JWT_SECRET_KEY", "secret");
                  ("CORS_ORIGINS", "http://localhost:5173") ];
     files := files_of [] |}.

(** Two of the required variables are absent. *)
Definition missing_two_world : World :=
  {| environ := [ ("SUPABASE_URL", "https://project.supabase.co");
                  ("SUPABASE_ANON_KEY", "anon");
                  ("SUPABASE_JWT_SECRET", "jwt");
                  ("CORS_ORIGINS", "http://localhost:5173") ];
     files := files_of [] |}.

(** [TimeoutError()]: an [Exception] whose [str] is empty. *)
Definition timeout_error : exn := {| is_Exception := true; exn_str := "" |}.

(** [KeyboardInterrupt()]: a [BaseException] that is not an [Exception]. *)
Definition keyboard_interrupt : exn :=
  {| is_Exception := false; exn_str := "" |}.

(** [ConnectionError("connection refused")] *)
Definition connection_error : exn :=
  {| is_Exception := true; exn_str := "connection refused" |}.

(** ** Vocabulary of the further properties *)

(** The names of the fields of [Settings], in the order of the class. *)
Definition field_names : list string :=
  [ "supabase_url"; "supabase_anon_key"; "supabase_service_role_key";
    "supabase_jwt_secret"; "supabase_db_url"; "supabase_db_password";
    "supabase_access_token"; "jwt_secret_key"; "jwt_algorithm";
    "jwt_access_token_expire_minutes"; "jwt_refresh_token_expire_days";
    "environment"; "debug"; "api_version"; "cors_origins";
    "media_max_file_size_mb"; "media_max_memory_size_mb";
    "media_thumbnail_size"; "media_upload_url_expires_seconds";
    "media_access_url_expires_seconds"; "storage_bucket_name";
    "cloudflare_tunnel_token" ].

(** The fields annotated [int]. *)
Definition int_fields : list string :=
  [ "jwt_access_token_expire_minutes"; "jwt_refresh_token_expire_days";
    "media_max_file_size_mb"; "media_max_memory_size_mb";
    "media_thumbnail_size"; "media_upload_url_expires_seconds";
    "media_access_url_expires_seconds" ].

(** The value of a field that a source may supply and that has a default
    otherwise. *)
Definition supplied_or {A} (supplied : option A) (default : A) : A :=
  match supplied with Some v => v | None => default end.

(** The value of an [int] field: the integer that [str_as_int] reads from
    the supplied string, or the default when no source supplies the
    field. *)
Definition int_field_ok (str_as_int : string -> int_reading) (w : World)
  (name : string) (default value : Z) : Prop :=
  match field_raw w name with
  | Some x => str_as_int x = IntValue value
  | None => value = default
  end.



(** How often a character occurs in a string. *)
Fixpoint count_char (c : ascii) (s : string) : nat :=
  match s with
  | EmptyString => 0
  | String x r => (if Ascii.eqb x c then 1 else 0) + count_char c r
  end.

(** Whether no value of a dotenv file contains a dollar sign, so that it
    holds no reference [${NAME}] for python-dotenv to expand. *)
Definition reference_free (bindings : list (string * string)) : bool :=
  forallb (fun kv => (count_char "$" (snd kv) =? 0)%nat) bindings.

(** Whether a string contains, starts with, ends with white space. *)
Fixpoint has_space (s : string) : bool :=
  match s with
  | EmptyString => false
  | String c r => PyStr.isspace c || has_space r
  end.

Definition starts_with_space (s : string) : bool :=
  match s with
  | EmptyString => false
  | String c _ => PyStr.isspace c
  end.

Fixpoint ends_with_space (s : string) : bool :=
  match s with
  | EmptyString => false
  | String c EmptyString => PyStr.isspace c
  | String _ r => ends_with_space r
  end.

(** No [ENVIRONMENT], no [.env.local]: the generic [.env] is the fallback.
    It also holds a selector, which comes too late to select a file. *)
Definition fallback_world : World :=
  {| environ := ("CORS_ORIGINS", "https://timelesslove.ai") :: required_env;
     files := files_of
       [ (".env", [ ("ENVIRONMENT", "production"); ("DEBUG", "true");
                    ("SUPABASE_URL", "https://other.supabase.co");
                    ("MEDIA_THUMBNAIL_SIZE", "256") ]);
         (".env.production", [("API_VERSION", "v9")]) ] |}.

(** A numeric variable that is not a numeral. *)
Definition bad_int_world : World :=
  {| environ := ("CORS_ORIGINS", "https://timelesslove.ai")
                :: ("MEDIA_THUMBNAIL_SIZE", "large") :: required_env;
     files := files_of [] |}.


(** A numeral of 4301 digits for a numeric variable. *)
Definition huge_int_world : World :=
  {| environ := ("CORS_ORIGINS", "https://timelesslove.ai")
                :: ("MEDIA_THUMBNAIL_SIZE",
                    string_of_list_ascii (repeat "1"%char 4301))
                :: required_env;
     files := files_of [] |}.

(** The settings of [fallback_world]. *)
Definition fallback_settings : Settings :=
  {| supabase_url := "https://project.supabase.co";
     supabase_anon_key := "anon";
     supabase_service_role_key := "service";
     supabase_jwt_secret := "jwt";
     supabase_db_url := None;
     supabase_db_password := None;
     supabase_access_token := None;
     jwt_secret_key := "secret";
     jwt_algorithm := "HS256";
     jwt_access_token_expire_minutes := 15;
     jwt_refresh_token_expire_days := 7;
     environment := "production";
     debug := "true";
     api_version := "v1";
     cors_origins := "https://timelesslove.ai";
     media_max_file_size_mb := 50;
     media_max_memory_size_mb := 200;
     media_thumbnail_size := 256;
     media_upload_url_expires_seconds := 300;
     media_access_url_expires_seconds := 3600;
     storage_bucket_name := "memories";
     cloudflare_tunnel_token := None |}.

(** * Properties *)

(** ** Dictionaries *)

Lemma get_set_same k v d : Dict.get k (Dict.set k v d) = Some v.
Proof.
  induction d as [|[k' v'] r IH]; simpl.
  - now rewrite String.eqb_refl.
  - destruct (String.eqb k' k) eqn:E; simpl; now rewrite E.
Qed.

Lemma get_set_other k k' v d :
  k <> k' -> Dict.get k' (Dict.set k v d) = Dict.get k' d.
Proof.
  intros Hne. induction d as [|[k0 v0] r IH]; simpl.
  - destruct (String.eqb_spec k k'); [contradiction | reflexivity].
  - destruct (String.eqb_spec k0 k) as [->|]; simpl.
    + destruct (String.eqb_spec k k'); [contradiction | reflexivity].
    + destruct (String.eqb_spec k0 k'); [reflexivity | exact IH].
Qed.

Lemma get_app k d1 d2 :
  Dict.get k (d1 ++ d2) =
  match Dict.get k d1 with Some v => Some v | None => Dict.get k d2 end.
Proof.
  induction d1 as [|[k' v'] r IH]; simpl; [reflexivity|].
  now destruct (String.eqb k' k).
Qed.

Lemma get_none_not_key k d : Dict.get k d = None -> ~ In k (Dict.keys d).
Proof.
  induction d as [|[k' v'] r IH]; simpl; [tauto|].
  destruct (String.eqb_spec k' k); [discriminate|]. intros H [?|?]; tauto.
Qed.

Lemma not_key_get_none k d : ~ In k (Dict.keys d) -> Dict.get k d = None.
Proof.
  induction d as [|[k' v'] r IH]; simpl; [reflexivity|].
  intros H. destruct (String.eqb_spec k' k); [tauto | apply IH; tauto].
Qed.

Lemma set_absent k v d : Dict.get k d = None -> Dict.set k v d = d ++ [(k, v)].
Proof.
  induction d as [|[k' v'] r IH]; simpl; [reflexivity|].
  destruct (String.eqb k' k); [discriminate|]. intros H. now rewrite IH.
Qed.

Lemma keys_set k v d :
  Dict.keys (Dict.set k v d) =
  if Dict.mem k d then Dict.keys d else Dict.keys d ++ [k].
Proof.
  unfold Dict.mem. induction d as [|[k' v'] r IH]; simpl; [reflexivity|].
  destruct (String.eqb k' k); simpl; [reflexivity|].
  rewrite IH. now destruct (Dict.get k r).
Qed.

Lemma NoDup_keys_set k v d :
  NoDup (Dict.keys d) -> NoDup (Dict.keys (Dict.set k v d)).
Proof.
  intros H. rewrite keys_set. unfold Dict.mem.
  destruct (Dict.get k d) eqn:E; [exact H|].
  apply NoDup_app; [exact H | repeat constructor; simpl; tauto |].
  intros x Hx [<-|[]]. now apply get_none_not_key in E.
Qed.

Lemma NoDup_keys_fold_set pairs acc :
  NoDup (Dict.keys acc) ->
  NoDup (Dict.keys
           (fold_left (fun d kv => Dict.set (fst kv) (snd kv) d) pairs acc)).
Proof.
  revert acc. induction pairs as [|[k v] r IH]; simpl; intros acc H.
  - exact H.
  - apply IH. now apply NoDup_keys_set.
Qed.

(** A dictionary built from pairs has each key once. *)
Lemma NoDup_keys_of_pairs pairs : NoDup (Dict.keys (Dict.of_pairs pairs)).
Proof. apply NoDup_keys_fold_set. constructor. Qed.

Lemma get_fold_set k pairs acc :
  Dict.get k (fold_left (fun d kv => Dict.set (fst kv) (snd kv) d) pairs acc) =
  match Dict.get k (Dict.of_pairs pairs) with
  | Some v => Some v
  | None => Dict.get k acc
  end.
Proof.
  unfold Dict.of_pairs. revert acc.
  induction pairs as [|[k' v'] r IH]; simpl; intros acc; [reflexivity|].
  rewrite IH. rewrite (IH [(k', v')]).
  match goal with |- context [Dict.get k (fold_left ?f r [])] =>
    destruct (Dict.get k (fold_left f r [])) end; [reflexivity|].
  simpl. destruct (String.eqb_spec k' k) as [->|Hne].
  - apply get_set_same.
  - now apply get_set_other.
Qed.

(** In [dict(x :: pairs)] a later binding of the key hides [x]. *)
Lemma get_of_pairs_cons k x pairs :
  Dict.get k (Dict.of_pairs (x :: pairs)) =
  match Dict.get k (Dict.of_pairs pairs) with
  | Some v => Some v
  | None => if String.eqb (fst x) k then Some (snd x) else None
  end.
Proof.
  unfold Dict.of_pairs at 1. simpl. rewrite get_fold_set.
  destruct x as [k' v']. simpl. now destruct (String.eqb k' k).
Qed.

Lemma get_of_pairs_app k l1 l2 :
  Dict.get k (Dict.of_pairs (l1 ++ l2)) =
  match Dict.get k (Dict.of_pairs l2) with
  | Some v => Some v
  | None => Dict.get k (Dict.of_pairs l1)
  end.
Proof.
  induction l1 as [|x r IH]; simpl.
  - now destruct (Dict.get k (Dict.of_pairs l2)).
  - rewrite !get_of_pairs_cons, IH.
    destruct (Dict.get k (Dict.of_pairs l2)); [reflexivity|].
    reflexivity.
Qed.

Lemma get_of_pairs_none k pairs :
  Dict.get k (Dict.of_pairs pairs) = None ->
  forall x, In x pairs -> fst x <> k.
Proof.
  induction pairs as [|y r IH]; simpl; [tauto|].
  rewrite get_of_pairs_cons.
  destruct (Dict.get k (Dict.of_pairs r)) eqn:E; [discriminate|].
  destruct (String.eqb_spec (fst y) k); [discriminate|].
  intros _ x [<-|Hx]; [assumption | now apply IH].
Qed.

Lemma get_lower_keys_app k d1 d2 :
  Dict.get k (Dict.lower_keys (d1 ++ d2)) =
  match Dict.get k (Dict.lower_keys d2) with
  | Some v => Some v
  | None => Dict.get k (Dict.lower_keys d1)
  end.
Proof. unfold Dict.lower_keys. rewrite map_app. apply get_of_pairs_app. Qed.


(** ** Loading dotenv files into the process environment *)

(** Without [override] the environment keeps every value it has and takes
    the file's value for the other keys. *)
Lemma get_fold_set_env_keep k d env0 :
  Dict.get k (fold_left (set_env false) d env0) =
  match Dict.get k env0 with Some v => Some v | None => Dict.get k d end.
Proof.
  revert env0. induction d as [|[k' v'] r IH]; simpl; intros env0.
  - now destruct (Dict.get k env0).
  - rewrite IH. unfold set_env, Dict.mem. simpl. rewrite andb_true_r.
    destruct (String.eqb_spec k' k) as [->|Hne].
    + destruct (Dict.get k env0) eqn:E; [now rewrite E|].
      now rewrite get_set_same.
    + destruct (Dict.get k' env0); [reflexivity|].
      now rewrite get_set_other.
Qed.

(** With [override] the file's value replaces the one of the environment.
    This is not how the module calls [load_dotenv]. *)
Lemma get_fold_set_env_override k d env0 :
  NoDup (Dict.keys d) ->
  Dict.get k (fold_left (set_env true) d env0) =
  match Dict.get k d with Some v => Some v | None => Dict.get k env0 end.
Proof.
  revert env0. induction d as [|[k' v'] r IH]; simpl; intros env0 Hnd.
  - reflexivity.
  - inversion Hnd as [|? ? Hnotin Hnd']; subst.
    rewrite (IH _ Hnd'). unfold set_env. simpl. rewrite andb_false_r.
    destruct (String.eqb_spec k' k) as [->|Hne].
    + rewrite (not_key_get_none _ _ Hnotin). apply get_set_same.
    + destruct (Dict.get k r); [reflexivity | now apply get_set_other].
Qed.

Lemma mem_app_singleton k k' v d :
  k <> k' -> Dict.mem k' (d ++ [(k, v)]) = Dict.mem k' d.
Proof.
  intros Hne. unfold Dict.mem. rewrite get_app. simpl.
  destruct (String.eqb_spec k k'); [contradiction|].
  now destruct (Dict.get k' d).
Qed.

(** Without [override], loading appends the bindings of the keys the
    environment does not have and touches nothing else. *)
Lemma fold_set_env_keep_app d env0 :
  NoDup (Dict.keys d) ->
  fold_left (set_env false) d env0 =
  env0 ++ filter (fun kv => negb (Dict.mem (fst kv) env0)) d.
Proof.
  revert env0. induction d as [|[k v] r IH]; simpl; intros env0 Hnd.
  - now rewrite app_nil_r.
  - inversion Hnd as [|? ? Hnotin Hnd']; subst.
    rewrite (IH _ Hnd'). unfold set_env. simpl. rewrite andb_true_r.
    destruct (Dict.mem k env0) eqn:E; simpl; [reflexivity|].
    unfold Dict.mem in E.
    destruct (Dict.get k env0) eqn:G; [discriminate|].
    rewrite (set_absent _ _ _ G), <- app_assoc. simpl. do 2 f_equal.
    apply filter_ext_in. intros [k' v'] Hin. simpl.
    rewrite mem_app_singleton; [reflexivity|].
    intros ->. apply Hnotin. now apply (in_map fst) in Hin.
Qed.




Lemma env_file_production w :
  getenv "ENVIRONMENT" w = Some "production" -> env_file w = ".env.production".
Proof. unfold env_file, env. now intros ->. Qed.

(** ** Precedence between the environment and the dotenv files *)

(** C3 (as stated, fails): [.env.production] exists and defines
    [API_VERSION = v2], the process environment already holds
    [API_VERSION = v0], and after the import the environment still holds
    [v0]: the value of the file does not take precedence. *)
Lemma tiered_file_does_not_override_environment :
  files production_world (env_file production_world)
    = Some [("API_VERSION", "v2"); ("JWT_ALGORITHM", "HS512")]
  /\ Dict.get "API_VERSION" (environ production_world) = Some "v0"
  /\ Dict.get "API_VERSION" (environ (fst (import_config production_world)))
     = Some "v0".
Proof. repeat split; reflexivity. Qed.

(** C3 (amended): when the file selected for the runtime selector exists,
    importing the module loads its bindings into the process environment
    for the keys the environment does not define yet; every key the
    environment already defines keeps its value. *)
Theorem tiered_file_fills_unset_keys w bindings k :
  files w (env_file w) = Some bindings ->
  Dict.get k (environ (fst (import_config w))) =
  match Dict.get k (environ w) with
  | Some v => Some v
  | None => Dict.get k (Dict.of_pairs bindings)
  end.
Proof.
  intros Hfile. simpl. unfold load_env_files, path_exists, load_dotenv.
  rewrite Hfile. simpl. apply get_fold_set_env_keep.
Qed.

Lemma tiered_file_fills_unset_keys_witness :
  Dict.get "JWT_ALGORITHM" (environ (fst (import_config production_world)))
  = Some "HS512".
Proof.
  exact (tiered_file_fills_unset_keys production_world
           [("API_VERSION", "v2"); ("JWT_ALGORITHM", "HS512")]
           "JWT_ALGORITHM" eq_refl).
Defined.





(** ** Validation *)

Lemma ap_errors {A B} (vf : validation (A -> B)) (va : validation A) :
  errors_of (vf <*> va) = errors_of vf ++ errors_of va.
Proof.
  destruct vf, va; simpl; try reflexivity. now rewrite app_nil_r.
Qed.

Lemma ap_valid_inv {A B} (vf : validation (A -> B)) (va : validation A) b :
  vf <*> va = Valid b ->
  exists f a, vf = Valid f /\ va = Valid a /\ b = f a.
Proof.
  destruct vf as [f|], va as [a|]; simpl; try discriminate.
  intros [= <-]. now exists f, a.
Qed.

Lemma invalid_errors_of {A} (v : validation A) e :
  v = Invalid e -> errors_of v = e.
Proof. now intros ->. Qed.

(** A field declared without a default is valid exactly when a source
    supplies it, and holds the supplied string as it is. *)
Lemma field_required_valid w name x :
  field validate_str w name None = Valid x <-> field_raw w name = Some x.
Proof.
  unfold field. destruct (field_raw w name); simpl; split;
    intros H; try discriminate; now inversion H.
Qed.

Lemma field_required_missing w name f :
  In (f, missing) (errors_of (field validate_str w name None)) <->
  f = name /\ field_raw w name = None.
Proof.
  unfold field. destruct (field_raw w name); simpl.
  - split; [tauto | intros [_ H]; discriminate].
  - split; [intros [[= ->]|[]]; now split | intros [-> _]; now left].
Qed.

(** A field with a declared default is never reported as [missing]. *)
Lemma field_default_not_missing {A} (validate : pyval -> ErrorType + A)
  w name d f :
  (forall v, validate v <> inl missing) ->
  In (f, missing) (errors_of (field validate w name (Some d))) <-> False.
Proof.
  intros Hv. unfold field. split; [|tauto].
  destruct (field_raw w name) as [s|]; simpl.
  - destruct (validate (PyStr s)) eqn:E; simpl; [|tauto].
    intros [[= _ ->]|[]]. now apply Hv in E.
  - destruct (validate d) eqn:E; simpl; [|tauto].
    intros [[= _ ->]|[]]. now apply Hv in E.
Qed.

Lemma validate_str_not_missing v : validate_str v <> inl missing.
Proof. now destruct v. Qed.

Lemma validate_optional_str_not_missing v :
  validate_optional_str v <> inl missing.
Proof. now destruct v. Qed.

Ltac invert_ap H :=
  repeat (let f := fresh "f" in
          let a := fresh "a" in
          let Ha := fresh "Ha" in
          apply ap_valid_inv in H; destruct H as (f & a & H & Ha & ->)).

Section ConfigProperties.

Variable str_as_int : string -> int_reading.

Lemma validate_int_not_missing v : validate_int str_as_int v <> inl missing.
Proof. destruct v; simpl; try discriminate. now destruct (str_as_int s). Qed.

(** The errors of type [missing] that construction reports are exactly the
    required fields that no source supplies. *)
Lemma Settings_init_missing g w f :
  In (f, missing) (errors_of (Settings_init str_as_int g w)) <->
  In f required_fields /\ field_raw w f = None.
Proof.
  unfold Settings_init. rewrite !ap_errors, !in_app_iff.
  rewrite !field_required_missing.
  rewrite !(field_default_not_missing validate_str)
    by apply validate_str_not_missing.
  rewrite !(field_default_not_missing validate_optional_str)
    by apply validate_optional_str_not_missing.
  rewrite !(field_default_not_missing (validate_int str_as_int))
    by apply validate_int_not_missing.
  simpl. split.
  - intros H. repeat destruct H as [H|H]; try contradiction;
      destruct H as [-> H]; tauto.
  - intros [H Hraw]. repeat destruct H as [H|H]; try contradiction;
      subst f; tauto.
Qed.

(** C5: for every environment in which at least one required field has no
    source, construction fails, and the validation error reports as
    [missing] every required field that has no source (and no other
    required field). *)
Theorem missing_required_fields_all_reported g w :
  (exists f, In f required_fields /\ field_raw w f = None) ->
  exists errors,
    Settings_init str_as_int g w = Invalid errors
    /\ (forall f, In f required_fields ->
                  (field_raw w f = None <-> In (f, missing) errors)).
Proof.
  intros (f0 & Hreq0 & Hraw0).
  assert (H0 : In (f0, missing) (errors_of (Settings_init str_as_int g w)))
    by (apply Settings_init_missing; now split).
  destruct (Settings_init str_as_int g w) as [s|errors] eqn:E; simpl in H0.
  - contradiction.
  - exists errors. split; [reflexivity|]. intros f Hreq.
    rewrite <- (invalid_errors_of _ _ E), Settings_init_missing. tauto.
Qed.

(** C6 (amended): whenever construction succeeds, every required field
    holds the string that the environment (or [.env]) supplies for it, as
    it is; the string may be empty. *)
Theorem required_fields_hold_supplied_strings g w s :
  Settings_init str_as_int g w = Valid s ->
  field_raw w "supabase_url" = Some (supabase_url s)
  /\ field_raw w "supabase_anon_key" = Some (supabase_anon_key s)
  /\ field_raw w "supabase_service_role_key"
     = Some (supabase_service_role_key s)
  /\ field_raw w "supabase_jwt_secret" = Some (supabase_jwt_secret s)
  /\ field_raw w "jwt_secret_key" = Some (jwt_secret_key s).
Proof.
  unfold Settings_init. intros H. invert_ap H. injection H as <-. simpl.
  repeat split; now apply field_required_valid.
Qed.

(** ** The cached instance *)

(** Once a call has returned an instance, every later call returns it,
    whatever the environment and the files have become, and changes
    nothing. *)
Lemma get_settings_cached w g s g' :
  get_settings str_as_int w g = (Valid s, g') ->
  forall w', get_settings str_as_int w' g' = (Valid s, g').
Proof.
  unfold get_settings. intros H w'.
  destruct (_settings g) as [s0|] eqn:Hc.
  - injection H as <- <-. now rewrite Hc.
  - destruct (Settings_init str_as_int g w); [|discriminate].
    injection H as <- <-. reflexivity.
Qed.

(** A call that raises caches nothing: the next call constructs again. *)
Lemma get_settings_failure_not_cached w g e g' :
  get_settings str_as_int w g = (Invalid e, g') ->
  g' = g /\ _settings g = None.
Proof.
  unfold get_settings. destruct (_settings g); [discriminate|].
  destruct (Settings_init str_as_int g w); [discriminate|].
  now intros [= _ <-].
Qed.

(** The instance a call returns is the cached one or a freshly validated
    one. *)
Lemma get_settings_valid w g s g' :
  get_settings str_as_int w g = (Valid s, g') ->
  _settings g' = Some s.
Proof.
  unfold get_settings. destruct (_settings g) eqn:Hc.
  - now intros [= <- <-].
  - destruct (Settings_init str_as_int g w); [|discriminate].
    now intros [= <- <-].
Qed.

(** ** The health endpoint *)

(** C1 (amended): when the probe raises an instance of [Exception], the
    operation does not propagate it and returns a document with
    [status = "healthy"], [database = "disconnected"] and
    [database_error = str(e)], which is empty when [str(e)] is. *)
Theorem health_probe_failure_reported w g s g' e :
  get_settings str_as_int w g = (Valid s, g') ->
  is_Exception e = true ->
  health str_as_int w g (Raised e) =
  (Document [ ("status", "healthy");
              ("version", api_version s);
              ("environment", environment s);
              ("database", "disconnected");
              ("database_error", exn_str e) ], g').
Proof.
  intros Hs He. unfold health. now rewrite Hs, He.
Qed.

(** C2: when the probe succeeds, the document has [status = "healthy"],
    the version and environment of the settings, [database = "connected"]
    and no [database_error]; every document the operation returns, whatever
    the probe did, carries the version and environment of the settings. *)
Theorem health_probe_success w g s g' :
  get_settings str_as_int w g = (Valid s, g') ->
  (exists doc,
     health str_as_int w g Returned = (Document doc, g')
     /\ Dict.get "status" doc = Some "healthy"
     /\ Dict.get "version" doc = Some (api_version s)
     /\ Dict.get "environment" doc = Some (environment s)
     /\ Dict.get "database" doc = Some "connected"
     /\ Dict.get "database_error" doc = None)
  /\ (forall probe doc g'',
        health str_as_int w g probe = (Document doc, g'') ->
        Dict.get "version" doc = Some (api_version s)
        /\ Dict.get "environment" doc = Some (environment s)).
Proof.
  intros Hs. unfold health. rewrite Hs. split.
  - eexists. repeat split.
  - intros [|e] doc g''.
    + intros [= <- _]. now split.
    + destruct (is_Exception e); [|discriminate].
      intros [= <- _]. now split.
Qed.

(** C10: every document the operation returns has the key [database],
    with value [connected] or [disconnected]; its keys are exactly
    status, version, environment, database in the first case and those
    four followed by database_error in the second. *)
Theorem health_document_keys w g probe doc g' :
  health str_as_int w g probe = (Document doc, g') ->
  (Dict.get "database" doc = Some "connected"
   \/ Dict.get "database" doc = Some "disconnected")
  /\ (Dict.get "database" doc = Some "connected" ->
      Dict.keys doc = ["status"; "version"; "environment"; "database"])
  /\ (Dict.get "database" doc = Some "disconnected" ->
      Dict.keys doc = ["status"; "version"; "environment"; "database";
                       "database_error"]).
Proof.
  unfold health. destruct (get_settings str_as_int w g) as [[s|e] g0];
    [|discriminate].
  destruct probe as [|e].
  - intros [= <- _]. simpl. repeat split; auto. discriminate.
  - destruct (is_Exception e); [|discriminate].
    intros [= <- _]. simpl. repeat split; auto. discriminate.
Qed.

End ConfigProperties.

(** ** The claims on sample inputs *)

Example missing_two_errors :
  configure decimal_int missing_two_world =
  Invalid [ ("supabase_service_role_key", missing);
            ("jwt_secret_key", missing) ].
Proof. reflexivity. Qed.

Lemma missing_required_fields_all_reported_witness :
  exists errors,
    Settings_init decimal_int (snd (import_config missing_two_world))
      (fst (import_config missing_two_world)) = Invalid errors
    /\ (forall f, In f required_fields ->
          (field_raw (fst (import_config missing_two_world)) f = None
           <-> In (f, missing) errors)).
Proof.
  apply (missing_required_fields_all_reported decimal_int).
  exists "jwt_secret_key". split; [simpl; tauto | reflexivity].
Defined.

(** C6 (as stated, fails): [SUPABASE_URL] is the empty string, the other
    required variables are set, and construction succeeds with
    [supabase_url = ""]. *)
Lemma empty_required_field_accepted :
  field_raw (fst (import_config empty_url_world)) "supabase_url" = Some ""
  /\ exists s, configure decimal_int empty_url_world = Valid s
               /\ supabase_url s = "".
Proof. split; [reflexivity|]. eexists. split; reflexivity. Qed.

Lemma required_fields_hold_supplied_strings_witness :
  field_raw (fst (import_config production_world)) "supabase_url"
  = Some "https://project.supabase.co".
Proof.
  exact (proj1 (required_fields_hold_supplied_strings decimal_int
                  (snd (import_config production_world))
                  (fst (import_config production_world))
                  production_settings eq_refl)).
Defined.

(** C1 (as stated, fails): the probe raises [TimeoutError()], whose [str]
    is empty, and the document has [database_error = ""]; the probe raises
    [KeyboardInterrupt()], which [except Exception] does not catch, and the
    exception leaves the operation. *)
Lemma health_probe_failure_empty_or_propagated :
  (exists doc g',
     health decimal_int (fst (import_config production_world))
       (snd (import_config production_world)) (Raised timeout_error)
     = (Document doc, g')
     /\ Dict.get "database_error" doc = Some "")
  /\ (exists g',
        health decimal_int (fst (import_config production_world))
          (snd (import_config production_world)) (Raised keyboard_interrupt)
        = (Propagated keyboard_interrupt, g')).
Proof.
  split.
  - do 2 eexists. split; reflexivity.
  - eexists. reflexivity.
Qed.

Lemma health_probe_failure_reported_witness :
  exists g',
    health decimal_int (fst (import_config production_world))
      (snd (import_config production_world)) (Raised connection_error)
    = (Document [ ("status", "healthy");
                  ("version", "v0");
                  ("environment", "production");
                  ("database", "disconnected");
                  ("database_error", "connection refused") ], g').
Proof.
  eexists.
  exact (health_probe_failure_reported decimal_int
           (fst (import_config production_world))
           (snd (import_config production_world))
           production_settings _ connection_error eq_refl eq_refl).
Defined.

Lemma health_probe_success_witness :
  exists doc g',
    health decimal_int (fst (import_config production_world))
      (snd (import_config production_world)) Returned = (Document doc, g')
    /\ Dict.get "database" doc = Some "connected"
    /\ Dict.get "database_error" doc = None.
Proof.
  destruct (proj1 (health_probe_success decimal_int
                     (fst (import_config production_world))
                     (snd (import_config production_world))
                     production_settings _ eq_refl))
    as (doc & H & _ & _ & _ & Hdb & Herr).
  exists doc. eexists. split; [exact H | split; assumption].
Defined.

Lemma health_document_keys_witness :
  Dict.keys [ ("status", "healthy"); ("version", "v0");
              ("environment", "production"); ("database", "disconnected");
              ("database_error", "") ]
  = ["status"; "version"; "environment"; "database"; "database_error"].
Proof.
  refine (proj2 (proj2 (health_document_keys decimal_int
            (fst (import_config production_world))
            (snd (import_config production_world))
            (Raised timeout_error) _ _ eq_refl)) eq_refl).
Defined.

(** ** The derived accessors *)

Lemma ascii_forall (P : ascii -> bool) :
  forallb (fun n => P (ascii_of_nat n)) (seq 0 256) = true ->
  forall c, P c = true.
Proof.
  intros H c. rewrite forallb_forall in H.
  rewrite <- (ascii_nat_embedding c). apply H, in_seq.
  pose proof (nat_ascii_bounded c). lia.
Qed.

(** The code points that [str.lower] sends to a given lower-case ASCII
    letter are that letter and its upper-case form. *)
Lemma lower_char_inv (c low up : ascii) :
  forallb (fun n => implb (Ascii.eqb (PyStr.lower_char (ascii_of_nat n)) low)
                      (Ascii.eqb (ascii_of_nat n) low
                       || Ascii.eqb (ascii_of_nat n) up))
    (seq 0 256) = true ->
  PyStr.lower_char c = low -> c = low \/ c = up.
Proof.
  intros Hall Hc.
  pose proof (ascii_forall
    (fun c => implb (Ascii.eqb (PyStr.lower_char c) low)
                (Ascii.eqb c low || Ascii.eqb c up)) Hall c) as H.
  simpl in H. rewrite Hc, Ascii.eqb_refl in H. simpl in H.
  apply orb_true_iff in H as [H|H]; apply Ascii.eqb_eq in H; auto.
Qed.

(** The strings that count as debug mode are the sixteen spellings of
    "true" in upper and lower case. *)
Lemma is_debug_spellings (self : Settings) :
  is_debug self = true <->
  exists c1 c2 c3 c4,
    debug self = String c1 (String c2 (String c3 (String c4 EmptyString)))
    /\ (c1 = "t" \/ c1 = "T")%char /\ (c2 = "r" \/ c2 = "R")%char
    /\ (c3 = "u" \/ c3 = "U")%char /\ (c4 = "e" \/ c4 = "E")%char.
Proof.
  unfold is_debug. rewrite String.eqb_eq. split.
  - destruct (debug self) as [|c1 [|c2 [|c3 [|c4 [|c5 r]]]]]; simpl;
      try discriminate.
    intros [= H1 H2 H3 H4]. exists c1, c2, c3, c4. split; [reflexivity|].
    repeat split; eapply lower_char_inv; try eassumption;
      vm_compute; reflexivity.
  - intros (c1 & c2 & c3 & c4 & -> & H1 & H2 & H3 & H4).
    destruct H1, H2, H3, H4; subst; reflexivity.
Qed.

(** C7: [is_debug] is true if and only if the stored debug string,
    lower-cased, is exactly "true"; "True" and "TRUE" give true, and "",
    "false" and "1" give false. *)
Theorem is_debug_spec (self : Settings) :
  (is_debug self = true <-> PyStr.lower (debug self) = "true")
  /\ (debug self = "True" \/ debug self = "TRUE" -> is_debug self = true)
  /\ (debug self = "" \/ debug self = "false" \/ debug self = "1"
      -> is_debug self = false).
Proof.
  unfold is_debug. split; [apply String.eqb_eq|].
  split; intros H; repeat destruct H as [H|H]; rewrite H; reflexivity.
Qed.

Lemma is_debug_spec_witness : is_debug production_settings = true.
Proof.
  exact (proj1 (proj2 (is_debug_spec production_settings))
           (or_introl eq_refl)).
Defined.

Lemma split_nonempty sep s : PyStr.split sep s <> [].
Proof.
  destruct s as [|c r]; simpl; [discriminate|].
  destruct (Ascii.eqb c sep); [discriminate|].
  destruct (PyStr.split sep r); discriminate.
Qed.

(** Joining the pieces with the separator gives the string back: the
    pieces are the segments between the separators, in order. *)
Lemma concat_split sep s :
  String.concat (String sep EmptyString) (PyStr.split sep s) = s.
Proof.
  induction s as [|c r IH]; simpl; [reflexivity|].
  pose proof (split_nonempty sep r) as Hne.
  destruct (Ascii.eqb_spec c sep) as [->|_].
  - destruct (PyStr.split sep r) as [|p ps]; [contradiction|].
    simpl in *. now rewrite IH.
  - destruct (PyStr.split sep r) as [|p ps]; [contradiction|].
    destruct ps; simpl in *; now rewrite <- IH.
Qed.

(** No piece contains the separator. *)
Lemma split_no_separator sep s piece :
  In piece (PyStr.split sep s) ->
  ~ In sep (list_ascii_of_string piece).
Proof.
  revert piece. induction s as [|c r IH]; simpl; intros piece.
  - intros [<-|[]]. simpl. tauto.
  - pose proof (split_nonempty sep r) as Hne.
    destruct (Ascii.eqb_spec c sep) as [->|Hc].
    + intros [<-|H]; [simpl; tauto | now apply IH].
    + destruct (PyStr.split sep r) as [|p ps]; [contradiction|].
      intros [<-|H].
      * simpl. intros [?|Hin]; [contradiction|].
        exact (IH p (or_introl eq_refl) Hin).
      * apply IH. now right.
Qed.

(** A stripped string does not start with white space. *)
Lemma strip_head s :
  match PyStr.strip s with
  | EmptyString => True
  | String c _ => PyStr.isspace c = false
  end.
Proof.
  unfold PyStr.strip.
  assert (Hl : match PyStr.lstrip s with
               | EmptyString => True
               | String c _ => PyStr.isspace c = false
               end).
  { induction s as [|c r IH]; simpl; [exact I|].
    destruct (PyStr.isspace c) eqn:E; [exact IH | exact E]. }
  destruct (PyStr.lstrip s) as [|c r]; simpl; [exact I|].
  destruct (PyStr.rstrip r); [now rewrite Hl | exact Hl].
Qed.

(** The origins "a, b,c" are read as a, b and c. *)
Lemma cors_origins_list_example (self : Settings) :
  cors_origins self = "a, b,c" -> cors_origins_list self = ["a"; "b"; "c"].
Proof. unfold cors_origins_list. now intros ->. Qed.

Section DeclaredDefault.

Variable str_as_int : string -> int_reading.

(** C8 (the code at the failing inputs): when [CORS_ORIGINS] is in no
    source, the default that line 55 declares is a list of two strings;
    it fails the validation of a [str] field, so construction raises and
    no instance holds the default. *)
Theorem cors_origins_default_rejected w :
  getenv "CORS_ORIGINS" (fst (import_config w)) = None ->
  field_raw (fst (import_config w)) "cors_origins" = None ->
  cors_origins_default (snd (import_config w))
    = PyList [ "http://localhost:5173, http://localhost:3000";
               "timelesslove.ai" ]
  /\ exists errors,
       configure str_as_int w = Invalid errors
       /\ In ("cors_origins", string_type) errors.
Proof.
  intros Henv Hraw. unfold configure, import_config in *.
  cbn [fst snd cors_origins_default] in *.
  unfold cors_origins_declared. rewrite Henv. split; [reflexivity|].
  unfold get_settings. cbn [_settings fst].
  match goal with |- context [Settings_init ?p ?g ?w'] =>
    assert (H : In ("cors_origins", string_type)
                  (errors_of (Settings_init p g w')))
  end.
  { unfold Settings_init. rewrite !ap_errors, !in_app_iff.
    do 7 left. right. unfold field. rewrite Hraw. simpl. now left. }
  destruct (Settings_init _ _ _) as [s|errors]; cbn [errors_of fst] in *.
  - contradiction.
  - now exists errors.
Qed.

End DeclaredDefault.

Lemma cors_origins_default_rejected_witness :
  cors_origins_default (snd (import_config required_only_world))
    = PyList [ "http://localhost:5173, http://localhost:3000";
               "timelesslove.ai" ]
  /\ exists errors,
       configure decimal_int required_only_world = Invalid errors
       /\ In ("cors_origins", string_type) errors.
Proof.
  exact (cors_origins_default_rejected decimal_int required_only_world
           eq_refl eq_refl).
Defined.

Example required_only_errors :
  configure decimal_int required_only_world
  = Invalid [("cors_origins", string_type)].
Proof. reflexivity. Qed.

(** C9 (the code at the failing input): with the five required variables
    set and nothing else, the first call of [get_settings] raises a
    validation error, caches nothing, and a repeated call raises again. *)
Theorem get_settings_required_only_raises :
  let w := fst (import_config required_only_world) in
  let g := snd (import_config required_only_world) in
  (forall f, In f required_fields -> field_raw w f <> None)
  /\ get_settings decimal_int w g
     = (Invalid [("cors_origins", string_type)], g)
  /\ get_settings decimal_int w (snd (get_settings decimal_int w g))
     = (Invalid [("cors_origins", string_type)], g).
Proof.
  repeat split.
  intros f H. simpl in H.
  repeat destruct H as [<-|H]; try contradiction; discriminate.
Qed.

(** * Further properties *)

(** ** What importing the module does to the process environment *)

Lemma added_keys_absent (env0 d : Dict.dict) k :
  In k (Dict.keys (filter (fun kv => negb (Dict.mem (fst kv) env0)) d)) ->
  Dict.get k env0 = None.
Proof.
  unfold Dict.keys. rewrite in_map_iff. intros ([k' v] & <- & Hin).
  apply filter_In in Hin as [_ Hmem]. simpl in *.
  apply negb_true_iff in Hmem. unfold Dict.mem in Hmem.
  now destruct (Dict.get k' env0).
Qed.

(** X1: importing the module only appends variables to the process
    environment: the variables that were there stay, with their values and
    in their order, the appended ones are new, and no file is touched. *)
Theorem import_only_appends w :
  exists added,
    environ (fst (import_config w)) = environ w ++ added
    /\ files (fst (import_config w)) = files w
    /\ (forall k, In k (Dict.keys added) -> Dict.get k (environ w) = None).
Proof.
  cbn [import_config fst].
  unfold load_env_files, path_exists, load_dotenv, override_default.
  destruct (files w (env_file w)) as [tier|]; cbn [environ files].
  - eexists. split; [apply fold_set_env_keep_app, NoDup_keys_of_pairs|].
    split; [reflexivity | apply added_keys_absent].
  - destruct (files w ".env") as [generic|]; cbn [environ files].
    + eexists. split; [apply fold_set_env_keep_app, NoDup_keys_of_pairs|].
      split; [reflexivity | apply added_keys_absent].
    + exists []. rewrite app_nil_r. repeat split. intros k [].
Qed.

(** X2: when the file of the selector is not on disk, the import falls
    back to [.env]: a variable the environment lacks takes the value the
    last binding of [.env] gives it, and when [.env] is absent too nothing
    is loaded and nothing fails. *)
Theorem fallback_file_fills_unset_keys w k :
  files w (env_file w) = None ->
  Dict.get k (environ (fst (import_config w))) =
  match Dict.get k (environ w) with
  | Some v => Some v
  | None =>
      match files w ".env" with
      | Some generic => Dict.get k (Dict.of_pairs generic)
      | None => None
      end
  end.
Proof.
  intros Hfile. cbn [import_config fst].
  unfold load_env_files, path_exists, load_dotenv. rewrite Hfile.
  destruct (files w ".env") as [generic|]; cbn [environ].
  - apply get_fold_set_env_keep.
  - now destruct (Dict.get k (environ w)).
Qed.

Lemma fallback_file_fills_unset_keys_witness :
  Dict.get "DEBUG" (environ (fst (import_config fallback_world)))
    = Some "true"
  /\ Dict.get "SUPABASE_URL" (environ (fst (import_config fallback_world)))
     = Some "https://project.supabase.co".
Proof.
  split.
  - exact (fallback_file_fills_unset_keys fallback_world "DEBUG" eq_refl).
  - exact (fallback_file_fills_unset_keys fallback_world "SUPABASE_URL"
             eq_refl).
Defined.



(** X4: the selector picks [.env.production], [.env.staging], [.env.test]
    or [.env.local] exactly for the values production, staging, test and
    development, compared as they are written, and [.env] for every other
    value. *)
Theorem env_file_cases w :
  (env_file w = ".env.production" <-> env w = "production")
  /\ (env_file w = ".env.staging" <-> env w = "staging")
  /\ (env_file w = ".env.test" <-> env w = "test")
  /\ (env_file w = ".env.local" <-> env w = "development")
  /\ (env_file w = ".env" <->
      ~ In (env w) ["production"; "staging"; "test"; "development"]).
Proof.
  unfold env_file, env_file_map. cbn [Dict.get].
  destruct (String.eqb_spec "production" (env w)) as [<-|H1].
  { repeat split; intros H; try discriminate H; try reflexivity.
    exfalso. apply H. now left. }
  destruct (String.eqb_spec "staging" (env w)) as [<-|H2].
  { repeat split; intros H; try discriminate H; try reflexivity.
    exfalso. apply H. right. now left. }
  destruct (String.eqb_spec "test" (env w)) as [<-|H3].
  { repeat split; intros H; try discriminate H; try reflexivity.
    exfalso. apply H. do 2 right. now left. }
  destruct (String.eqb_spec "development" (env w)) as [<-|H4].
  { repeat split; intros H; try discriminate H; try reflexivity.
    exfalso. apply H. do 3 right. now left. }
  repeat split; intros H; try discriminate H; try congruence.
  intros [?|[?|[?|[?|[]]]]]; congruence.
Qed.

(** X5: the selector is read from the process environment before any file
    is loaded.  When the environment has no [ENVIRONMENT], the file is
    [.env.local], with [.env] as the fallback, and no other file
    contributes a variable, even if one of the two sets [ENVIRONMENT]. *)
Theorem selector_read_before_files w k :
  getenv "ENVIRONMENT" w = None ->
  env_file w = ".env.local"
  /\ Dict.get k (environ (fst (import_config w))) =
     match Dict.get k (environ w) with
     | Some v => Some v
     | None =>
         match files w ".env.local" with
         | Some b => Dict.get k (Dict.of_pairs b)
         | None =>
             match files w ".env" with
             | Some b => Dict.get k (Dict.of_pairs b)
             | None => None
             end
         end
     end.
Proof.
  intros Hsel.
  assert (Hfile : env_file w = ".env.local")
    by (unfold env_file, env; now rewrite Hsel).
  split; [exact Hfile|].
  cbn [import_config fst].
  unfold load_env_files, path_exists, load_dotenv, override_default.
  rewrite Hfile.
  destruct (files w ".env.local") as [b|]; cbn [environ].
  - apply get_fold_set_env_keep.
  - destruct (files w ".env") as [b|]; cbn [environ].
    + apply get_fold_set_env_keep.
    + now destruct (Dict.get k (environ w)).
Qed.

Lemma selector_read_before_files_witness :
  getenv "ENVIRONMENT" (fst (import_config fallback_world))
    = Some "production"
  /\ getenv "API_VERSION" (fst (import_config fallback_world)) = None.
Proof.
  split.
  - exact (proj2 (selector_read_before_files fallback_world "ENVIRONMENT"
                    eq_refl)).
  - exact (proj2 (selector_read_before_files fallback_world "API_VERSION"
                    eq_refl)).
Defined.

(** ** What a constructed instance holds *)

Lemma field_str_default w name d :
  field validate_str w name (Some (PyStr d))
  = Valid (supplied_or (field_raw w name) d).
Proof. unfold field. now destruct (field_raw w name). Qed.

Lemma field_optional_str w name :
  field validate_optional_str w name (Some PyNone) = Valid (field_raw w name).
Proof. unfold field. now destruct (field_raw w name). Qed.

Lemma get_some_in k v d : Dict.get k d = Some v -> In (k, v) d.
Proof.
  induction d as [|[k' v'] r IH]; simpl; [discriminate|].
  destruct (String.eqb_spec k' k) as [->|_].
  - intros [= ->]. now left.
  - intros H. right. now apply IH.
Qed.

Lemma get_of_pairs_absent k pairs :
  (forall x, In x pairs -> fst x <> k) ->
  Dict.get k (Dict.of_pairs pairs) = None.
Proof.
  induction pairs as [|y r IH]; intros H; [reflexivity|].
  rewrite get_of_pairs_cons, IH by (intros x Hx; apply H; now right).
  destruct (String.eqb_spec (fst y) k) as [Heq|_]; [|reflexivity].
  exfalso. exact (H y (or_introl eq_refl) Heq).
Qed.

Lemma get_lower_keys_cons name k v d :
  Dict.get name (Dict.lower_keys ((k, v) :: d)) =
  match Dict.get name (Dict.lower_keys d) with
  | Some v' => Some v'
  | None => if String.eqb (PyStr.lower k) name then Some v else None
  end.
Proof. unfold Dict.lower_keys. cbn [map]. apply get_of_pairs_cons. Qed.

Ltac in_list := cbn [In]; repeat (first [left; reflexivity | right]).

Section FieldProperties.

Variable str_as_int : string -> int_reading.

Lemma field_int w name d :
  field (validate_int str_as_int) w name (Some (PyInt d)) =
  match field_raw w name with
  | Some x => match str_as_int x with
              | IntValue z => Valid z
              | IntParsing => Invalid [(name, int_parsing)]
              | IntParsingSize => Invalid [(name, int_parsing_size)]
              end
  | None => Valid d
  end.
Proof.
  unfold field. destruct (field_raw w name) as [x|]; simpl; [|reflexivity].
  now destruct (str_as_int x).
Qed.

(** X6: in a constructed instance, each string field with a declared
    default holds the string a source supplies for it, and the default
    (HS256, development, false, v1, memories) when no source does. *)
Theorem string_fields_supplied_or_default g w s :
  Settings_init str_as_int g w = Valid s ->
  jwt_algorithm s = supplied_or (field_raw w "jwt_algorithm") "HS256"
  /\ environment s = supplied_or (field_raw w "environment") "development"
  /\ debug s = supplied_or (field_raw w "debug") "false"
  /\ api_version s = supplied_or (field_raw w "api_version") "v1"
  /\ storage_bucket_name s
     = supplied_or (field_raw w "storage_bucket_name") "memories".
Proof.
  unfold Settings_init. intros H. invert_ap H. injection H as <-.
  cbn [jwt_algorithm environment debug api_version storage_bucket_name].
  repeat match goal with
         | Ha : field validate_str _ _ (Some (PyStr _)) = Valid _ |- _ =>
             rewrite field_str_default in Ha; injection Ha as <-
         end.
  repeat split.
Qed.

(** X7: each optional field of a constructed instance is [None] exactly
    when no source supplies it, and otherwise holds the supplied string. *)
Theorem optional_fields_as_supplied g w s :
  Settings_init str_as_int g w = Valid s ->
  supabase_db_url s = field_raw w "supabase_db_url"
  /\ supabase_db_password s = field_raw w "supabase_db_password"
  /\ supabase_access_token s = field_raw w "supabase_access_token"
  /\ cloudflare_tunnel_token s = field_raw w "cloudflare_tunnel_token".
Proof.
  unfold Settings_init. intros H. invert_ap H. injection H as <-.
  cbn [supabase_db_url supabase_db_password supabase_access_token
       cloudflare_tunnel_token].
  repeat match goal with
         | Ha : field validate_optional_str _ _ _ = Valid _ |- _ =>
             rewrite field_optional_str in Ha; injection Ha as <-
         end.
  repeat split.
Qed.

Lemma field_int_valid w name d z :
  field (validate_int str_as_int) w name (Some (PyInt d)) = Valid z ->
  int_field_ok str_as_int w name d z.
Proof.
  rewrite field_int. unfold int_field_ok.
  destruct (field_raw w name) as [x|].
  - destruct (str_as_int x); [now intros [= ->] | discriminate..].
  - now intros [= ->].
Qed.

(** X8: each numeric field of a constructed instance holds the integer
    read from the string a source supplies, and its default (15, 7, 50,
    200, 400, 300, 3600) when no source supplies it. *)
Theorem int_fields_parsed_or_default g w s :
  Settings_init str_as_int g w = Valid s ->
  int_field_ok str_as_int w "jwt_access_token_expire_minutes" 15
    (jwt_access_token_expire_minutes s)
  /\ int_field_ok str_as_int w "jwt_refresh_token_expire_days" 7
       (jwt_refresh_token_expire_days s)
  /\ int_field_ok str_as_int w "media_max_file_size_mb" 50 (media_max_file_size_mb s)
  /\ int_field_ok str_as_int w "media_max_memory_size_mb" 200
       (media_max_memory_size_mb s)
  /\ int_field_ok str_as_int w "media_thumbnail_size" 400 (media_thumbnail_size s)
  /\ int_field_ok str_as_int w "media_upload_url_expires_seconds" 300
       (media_upload_url_expires_seconds s)
  /\ int_field_ok str_as_int w "media_access_url_expires_seconds" 3600
       (media_access_url_expires_seconds s).
Proof.
  unfold Settings_init. intros H. invert_ap H. injection H as <-.
  cbn [jwt_access_token_expire_minutes jwt_refresh_token_expire_days
       media_max_file_size_mb media_max_memory_size_mb media_thumbnail_size
       media_upload_url_expires_seconds media_access_url_expires_seconds].
  repeat split; now apply field_int_valid.
Qed.

(** X9: a numeric field whose supplied string pydantic does not read as
    an integer makes construction fail, and the error names the field,
    with the type [int_parsing], or [int_parsing_size] when the string is
    refused for its length. *)
Theorem int_field_not_parsed_rejected g w name x :
  In name int_fields ->
  field_raw w name = Some x ->
  (forall z, str_as_int x <> IntValue z) ->
  exists errors,
    Settings_init str_as_int g w = Invalid errors
    /\ (str_as_int x = IntParsing /\ In (name, int_parsing) errors
        \/ str_as_int x = IntParsingSize
           /\ In (name, int_parsing_size) errors).
Proof.
  intros Hin Hraw Hparse.
  assert (Hfield : forall t,
            (forall d, field (validate_int str_as_int) w name (Some (PyInt d))
                       = Invalid [(name, t)]) ->
            In (name, t) (errors_of (Settings_init str_as_int g w))).
  { intros t Ht. unfold Settings_init. rewrite !ap_errors, !in_app_iff.
    cbn [In int_fields] in Hin.
    repeat destruct Hin as [<-|Hin]; try contradiction;
      rewrite Ht; cbn [errors_of In]; tauto. }
  assert (H : str_as_int x = IntParsing
              /\ In (name, int_parsing)
                   (errors_of (Settings_init str_as_int g w))
              \/ str_as_int x = IntParsingSize
                 /\ In (name, int_parsing_size)
                      (errors_of (Settings_init str_as_int g w))).
  { destruct (str_as_int x) as [z| |] eqn:Hx;
      [now destruct (Hparse z) | left | right];
      (split; [reflexivity|]); apply Hfield; intros d;
      now rewrite field_int, Hraw, Hx. }
  destruct (Settings_init str_as_int g w) as [s|errors]; cbn [errors_of] in H.
  - destruct H as [[_ []]|[_ []]].
  - now exists errors.
Qed.

End FieldProperties.

Section ConstructionProperties.

Variable str_as_int : string -> int_reading.

Lemma field_required_supplied w name :
  field_raw w name <> None ->
  exists v, field validate_str w name None = Valid v.
Proof.
  intros H. destruct (field_raw w name) as [v|] eqn:E; [|contradiction].
  exists v. now apply field_required_valid.
Qed.

Lemma field_int_parsed w name d :
  (forall x, field_raw w name = Some x ->
             exists z, str_as_int x = IntValue z) ->
  exists z, field (validate_int str_as_int) w name (Some (PyInt d)) = Valid z.
Proof.
  intros H. rewrite field_int. destruct (field_raw w name) as [x|].
  - destruct (H x eq_refl) as [z ->]. now exists z.
  - now exists d.
Qed.

Lemma field_cors_origins w default :
  (field_raw w "cors_origins" = None -> exists v, default = PyStr v) <->
  exists v, field validate_str w "cors_origins" (Some default) = Valid v.
Proof.
  unfold field. destruct (field_raw w "cors_origins") as [x|]; simpl.
  - split; [now exists x | discriminate].
  - split.
    + intros H. destruct (H eq_refl) as [v ->]. now exists v.
    + intros [v H] _. destruct default; try discriminate. now eexists.
Qed.

(** X10: construction succeeds exactly when every required field has a
    source, every numeric field that has a source holds an integer, and
    [cors_origins] has a source or a string as its default. *)
Theorem Settings_init_succeeds_iff g w :
  (exists s, Settings_init str_as_int g w = Valid s) <->
  (forall f, In f required_fields -> field_raw w f <> None)
  /\ (forall f x, In f int_fields -> field_raw w f = Some x ->
                  exists z, str_as_int x = IntValue z)
  /\ (field_raw w "cors_origins" = None ->
      exists v, cors_origins_default g = PyStr v).
Proof.
  split.
  - intros [s H]. unfold Settings_init in H. invert_ap H. clear H.
    split; [|split].
    + intros f Hf. cbn [In required_fields] in Hf.
      repeat destruct Hf as [<-|Hf]; try contradiction;
        match goal with
        | Ha : field validate_str _ ?n None = Valid _ |- field_raw _ ?n <> _ =>
            apply field_required_valid in Ha; rewrite Ha; discriminate
        end.
    + intros f x Hf Hraw. cbn [In int_fields] in Hf.
      repeat destruct Hf as [<-|Hf]; try contradiction;
        match goal with
        | Ha : field _ _ ?n (Some (PyInt _)) = Valid _
          |- exists _, str_as_int _ = _ =>
            match type of Hraw with
            | field_raw _ n = _ =>
                rewrite field_int, Hraw in Ha;
                destruct (str_as_int x) as [z| |];
                [now exists z | discriminate Ha | discriminate Ha]
            end
        end.
    + apply field_cors_origins. eexists. eassumption.
  - intros (Hreq & Hint & Hcors). unfold Settings_init.
    rewrite !field_str_default, !field_optional_str.
    destruct (field_required_supplied w "supabase_url") as [? ->];
      [apply Hreq; in_list|].
    destruct (field_required_supplied w "supabase_anon_key") as [? ->];
      [apply Hreq; in_list|].
    destruct (field_required_supplied w "supabase_service_role_key")
      as [? ->]; [apply Hreq; in_list|].
    destruct (field_required_supplied w "supabase_jwt_secret") as [? ->];
      [apply Hreq; in_list|].
    destruct (field_required_supplied w "jwt_secret_key") as [? ->];
      [apply Hreq; in_list|].
    destruct (proj1 (field_cors_origins w _) Hcors) as [? ->].
    repeat match goal with
           | |- context [field (validate_int str_as_int) w ?n
                           (Some (PyInt ?d))] =>
               let Hn := fresh "Hn" in
               let H := fresh "Hv" in
               let Hx := fresh "Hx" in
               assert (Hn : forall x, field_raw w n = Some x ->
                                      exists z, str_as_int x = IntValue z)
                 by (intros ? Hx; eapply (Hint n); [in_list | exact Hx]);
               destruct (field_int_parsed w n d Hn) as [? H];
               rewrite H; clear H Hn
           end.
    cbn [ap]. eexists. reflexivity.
Qed.

(** X11: when [.env] is absent or holds no reference to expand, a
    variable whose lower-cased name is not the name of a field is ignored:
    with or without it, wherever it stands in the environment,
    construction gives the same result. *)
Theorem unknown_variable_ignored g fs d1 d2 k v :
  ~ In (PyStr.lower k) field_names ->
  match fs ".env" with
  | Some bindings => reference_free bindings = true
  | None => True
  end ->
  Settings_init str_as_int g {| environ := d1 ++ (k, v) :: d2; files := fs |}
  = Settings_init str_as_int g {| environ := d1 ++ d2; files := fs |}.
Proof.
  intros Hk _.
  assert (Hraw : forall name, In name field_names ->
            field_raw {| environ := d1 ++ (k, v) :: d2; files := fs |} name
            = field_raw {| environ := d1 ++ d2; files := fs |} name).
  { intros name Hname. unfold field_raw, env_settings, dotenv_settings.
    cbn [environ files]. rewrite !get_lower_keys_app, get_lower_keys_cons.
    destruct (String.eqb_spec (PyStr.lower k) name) as [Heq|_].
    - exfalso. apply Hk. now rewrite Heq.
    - now destruct (Dict.get name (Dict.lower_keys d2)). }
  unfold Settings_init, field.
  repeat match goal with
         | |- context [field_raw {| environ := d1 ++ (k, v) :: d2;
                                    files := fs |} ?n] =>
             rewrite (Hraw n) by in_list
         end.
  reflexivity.
Qed.

(** X12: the name of a variable is matched whatever its case, and among
    the variables of the environment that spell the name of a field the
    last one gives the field its value, before any dotenv file. *)
Theorem variable_name_case_insensitive fs d1 d2 k v name :
  PyStr.lower k = name ->
  (forall x, In x d2 -> PyStr.lower (fst x) <> name) ->
  field_raw {| environ := d1 ++ (k, v) :: d2; files := fs |} name = Some v.
Proof.
  intros Hk Hlast. unfold field_raw, env_settings. cbn [environ].
  rewrite get_lower_keys_app, get_lower_keys_cons.
  assert (Hd2 : Dict.get name (Dict.lower_keys d2) = None).
  { unfold Dict.lower_keys. apply get_of_pairs_absent.
    intros x Hx. apply in_map_iff in Hx as (y & <- & Hy). simpl.
    now apply Hlast. }
  rewrite Hd2, Hk, String.eqb_refl. reflexivity.
Qed.

(** X13: in a fresh process, construction succeeds only if a source
    supplies [cors_origins], and the instance then holds the supplied
    string: the default that the class declares is never the value of the
    field. *)
Theorem configure_needs_cors_origins w s :
  configure str_as_int w = Valid s ->
  field_raw (fst (import_config w)) "cors_origins" = Some (cors_origins s).
Proof.
  unfold configure, import_config, get_settings.
  cbn [fst snd _settings cors_origins_default].
  destruct (Settings_init _ _ _) as [s'|] eqn:H; cbn [fst]; [|discriminate].
  intros [= ->]. unfold Settings_init in H. invert_ap H. injection H as <-.
  cbn [cors_origins].
  match goal with
  | Ha : field validate_str _ "cors_origins" _ = Valid _ |- _ =>
      unfold field in Ha; revert Ha
  end.
  destruct (field_raw (load_env_files w) "cors_origins") as [x|] eqn:Hraw.
  - now intros [= ->].
  - intros Hc. exfalso. unfold cors_origins_declared in Hc.
    destruct (getenv "CORS_ORIGINS" (load_env_files w)) as [x|] eqn:Henv.
    + apply get_some_in in Henv. unfold field_raw, env_settings in Hraw.
      destruct (Dict.get "cors_origins" (Dict.lower_keys _)) eqn:Hget;
        [discriminate|].
      unfold Dict.lower_keys in Hget.
      apply (get_of_pairs_none _ _ Hget ("cors_origins", x)); [|reflexivity].
      apply in_map_iff. now exists ("CORS_ORIGINS", x).
    + discriminate Hc.
Qed.

(** X14: debug mode is on only if a source turns it on: when [is_debug]
    holds of a constructed instance, some source supplies [debug] with a
    string that is "true" up to case. *)
Theorem is_debug_needs_source g w s :
  Settings_init str_as_int g w = Valid s ->
  is_debug s = true ->
  exists v, field_raw w "debug" = Some v /\ PyStr.lower v = "true".
Proof.
  intros H Hdebug. unfold Settings_init in H. invert_ap H.
  injection H as <-. unfold is_debug in Hdebug. cbn [debug] in Hdebug.
  match goal with
  | Ha : field validate_str _ "debug" _ = Valid _ |- _ =>
      rewrite field_str_default in Ha; injection Ha as <-
  end.
  destruct (field_raw w "debug") as [v|]; cbn [supplied_or] in Hdebug.
  - exists v. split; [reflexivity | now apply String.eqb_eq].
  - discriminate.
Qed.

End ConstructionProperties.

(** ** The cached instance and the health endpoint, call after call *)

Section CallSequences.

Variable str_as_int : string -> int_reading.

(** X15: once [get_settings] has returned an instance, the instance is
    cached and every later call returns it and changes nothing, whatever
    the process environment and the files have become. *)
Theorem get_settings_idempotent w g s g' w' :
  get_settings str_as_int w g = (Valid s, g') ->
  _settings g' = Some s
  /\ cors_origins_default g' = cors_origins_default g
  /\ get_settings str_as_int w' g' = (Valid s, g').
Proof.
  intros H. split; [exact (get_settings_valid _ _ _ _ _ H)|].
  split; [|exact (get_settings_cached _ _ _ _ _ H w')].
  unfold get_settings in H. destruct (_settings g).
  - now injection H as _ <-.
  - destruct (Settings_init str_as_int g w); [|discriminate].
    now injection H as _ <-.
Qed.

(** X16: a call of [get_settings] that raises leaves nothing behind: the
    next call validates the environment as it then is, and caches the
    instance when the environment has been repaired. *)
Theorem get_settings_retries_after_failure w g e g' w' s :
  get_settings str_as_int w g = (Invalid e, g') ->
  Settings_init str_as_int g w' = Valid s ->
  get_settings str_as_int w' g'
  = (Valid s, {| cors_origins_default := cors_origins_default g;
                 _settings := Some s |}).
Proof.
  intros Hfail Hinit.
  destruct (get_settings_failure_not_cached _ _ _ _ _ Hfail) as [-> Hnone].
  unfold get_settings. now rewrite Hnone, Hinit.
Qed.

(** X17: the operation returns a document exactly when the settings are
    available and the probe returns or raises an instance of [Exception];
    in every other case an exception leaves the operation. *)
Theorem health_returns_document_iff w g probe :
  (exists doc g', health str_as_int w g probe = (Document doc, g')) <->
  (exists s g', get_settings str_as_int w g = (Valid s, g'))
  /\ (probe = Returned
      \/ exists e, probe = Raised e /\ is_Exception e = true).
Proof.
  unfold health.
  destruct (get_settings str_as_int w g) as [[s|errors] g0].
  - destruct probe as [|e].
    + split; [intros _ | intros _; now do 2 eexists].
      split; [now exists s, g0 | now left].
    + destruct (is_Exception e) eqn:He.
      * split; [intros _ | intros _; now do 2 eexists].
        split; [now exists s, g0 | right; now exists e].
      * split; [intros (doc & g' & H); discriminate H|].
        intros (_ & [H | (e' & [= <-] & H)]); [discriminate H | congruence].
  - split; [intros (doc & g' & H); discriminate H|].
    intros ((s & g' & H) & _). discriminate H.
Qed.

(** X18: when the settings cannot be constructed, the operation raises the
    validation error whatever the probe would do; no document is returned
    and nothing is cached. *)
Theorem health_raises_without_settings w g errors probe :
  _settings g = None ->
  Settings_init str_as_int g w = Invalid errors ->
  health str_as_int w g probe = (ValidationError errors, g).
Proof.
  intros Hnone Hinit. unfold health, get_settings.
  now rewrite Hnone, Hinit.
Qed.

(** X19: once the operation has returned a document, every later call
    that returns one reports the same version and environment, whatever
    the process environment and the files have become, and leaves the
    cached settings as they are. *)
Theorem health_reuses_settings w g probe doc g' w' probe' doc' g'' :
  health str_as_int w g probe = (Document doc, g') ->
  health str_as_int w' g' probe' = (Document doc', g'') ->
  g'' = g'
  /\ Dict.get "version" doc' = Dict.get "version" doc
  /\ Dict.get "environment" doc' = Dict.get "environment" doc.
Proof.
  unfold health at 1.
  destruct (get_settings str_as_int w g) as [[s|errors] g0] eqn:Hs;
    [|discriminate].
  intros H1.
  assert (Hg : g0 = g' /\ Dict.get "version" doc = Some (api_version s)
               /\ Dict.get "environment" doc = Some (environment s)).
  { destruct probe as [|e]; [|destruct (is_Exception e); [|discriminate]];
      injection H1 as <- <-; repeat split. }
  destruct Hg as (-> & -> & ->).
  unfold health. rewrite (get_settings_cached _ _ _ _ _ Hs w').
  destruct probe' as [|e]; [|destruct (is_Exception e); [|discriminate]];
    intros [= <- <-]; repeat split.
Qed.

End CallSequences.

(** ** The list of origins *)

Lemma split_length sep s :
  length (PyStr.split sep s) = S (count_char sep s).
Proof.
  induction s as [|c r IH]; simpl; [reflexivity|].
  pose proof (split_nonempty sep r) as Hne.
  destruct (Ascii.eqb c sep); simpl; [now rewrite IH|].
  destruct (PyStr.split sep r); [contradiction | exact IH].
Qed.

Lemma split_count_zero sep s piece :
  In piece (PyStr.split sep s) -> count_char sep piece = 0.
Proof.
  revert piece. induction s as [|c r IH]; simpl; intros piece.
  - now intros [<-|[]].
  - pose proof (split_nonempty sep r) as Hne.
    destruct (Ascii.eqb c sep) eqn:Hc.
    + intros [<-|H]; [reflexivity | now apply IH].
    + destruct (PyStr.split sep r) as [|p ps]; [contradiction|].
      intros [<-|H].
      * simpl. rewrite Hc. apply IH. now left.
      * apply IH. now right.
Qed.

Lemma count_char_lstrip c s :
  count_char c s = 0 -> count_char c (PyStr.lstrip s) = 0.
Proof.
  induction s as [|x r IH]; simpl; [reflexivity|].
  intros H. destruct (PyStr.isspace x); [apply IH; lia | exact H].
Qed.

Lemma count_char_rstrip c s :
  count_char c s = 0 -> count_char c (PyStr.rstrip s) = 0.
Proof.
  induction s as [|x r IH]; simpl; [reflexivity|].
  intros H. assert (Hr : count_char c (PyStr.rstrip r) = 0) by (apply IH; lia).
  destruct (PyStr.rstrip r) as [|y r'].
  - destruct (PyStr.isspace x); simpl; [reflexivity | lia].
  - simpl in *. lia.
Qed.

Lemma rstrip_not_ends_with_space s :
  ends_with_space (PyStr.rstrip s) = false.
Proof.
  induction s as [|c r IH]; simpl; [reflexivity|].
  destruct (PyStr.rstrip r) as [|c' r'].
  - destruct (PyStr.isspace c) eqn:E; simpl; [reflexivity | exact E].
  - exact IH.
Qed.

Lemma strip_not_starts_with_space s :
  starts_with_space (PyStr.strip s) = false.
Proof.
  pose proof (strip_head s) as H.
  destruct (PyStr.strip s); [reflexivity | exact H].
Qed.

(** X20: [cors_origins_list] yields one origin for each comma-separated
    segment of the stored string, one more than there are commas: it is
    never empty, and a segment that is empty or blank is not dropped. *)
Theorem cors_origins_list_length (self : Settings) :
  length (cors_origins_list self) = S (count_char "," (cors_origins self)).
Proof.
  unfold cors_origins_list. rewrite length_map. apply split_length.
Qed.

(** X21: no origin of [cors_origins_list] contains a comma, starts with
    white space or ends with white space. *)
Theorem cors_origins_list_trimmed (self : Settings) origin :
  In origin (cors_origins_list self) ->
  count_char "," origin = 0
  /\ starts_with_space origin = false
  /\ ends_with_space origin = false.
Proof.
  unfold cors_origins_list. rewrite in_map_iff.
  intros (piece & <- & Hin). split; [|split].
  - unfold PyStr.strip.
    apply count_char_rstrip, count_char_lstrip, (split_count_zero _ _ _ Hin).
  - apply strip_not_starts_with_space.
  - apply rstrip_not_ends_with_space.
Qed.

Lemma strip_without_space s : has_space s = false -> PyStr.strip s = s.
Proof.
  intros H. unfold PyStr.strip.
  assert (Hl : PyStr.lstrip s = s).
  { destruct s as [|c r]; [reflexivity|]. simpl in *.
    apply orb_false_iff in H as [-> _]. reflexivity. }
  rewrite Hl. clear Hl. induction s as [|c r IH]; [reflexivity|].
  simpl in *. apply orb_false_iff in H as [Hc Hr].
  rewrite (IH Hr). destruct r; [now rewrite Hc | reflexivity].
Qed.

Lemma split_without_space sep s piece :
  has_space s = false -> In piece (PyStr.split sep s) ->
  has_space piece = false.
Proof.
  revert piece. induction s as [|c r IH]; simpl; intros piece Hs.
  - now intros [<-|[]].
  - apply orb_false_iff in Hs as [Hc Hr].
    pose proof (split_nonempty sep r) as Hne.
    destruct (Ascii.eqb c sep).
    + intros [<-|H]; [reflexivity | now apply IH].
    + destruct (PyStr.split sep r) as [|p ps]; [contradiction|].
      intros [<-|H].
      * simpl. rewrite Hc. apply IH; [exact Hr | now left].
      * apply IH; [exact Hr | now right].
Qed.

(** X22: when the stored string contains no white space, the origins are
    its comma-separated segments as they are: joining them with commas
    gives the stored string back. *)
Theorem cors_origins_list_join (self : Settings) :
  has_space (cors_origins self) = false ->
  String.concat "," (cors_origins_list self) = cors_origins self.
Proof.
  intros H. unfold cors_origins_list.
  rewrite (map_ext_in _ (fun piece => piece)), map_id.
  - apply concat_split.
  - intros piece Hin. apply strip_without_space.
    exact (split_without_space _ _ _ H Hin).
Qed.

(** X23: debug mode is on for exactly sixteen stored strings, the
    spellings of "true" in upper and lower case; white space is not
    trimmed and no other word ("1", "yes", "on") counts. *)
Theorem is_debug_true_values (self : Settings) :
  is_debug self = true <->
  In (debug self)
    [ "true"; "truE"; "trUe"; "trUE"; "tRue"; "tRuE"; "tRUe"; "tRUE";
      "True"; "TruE"; "TrUe"; "TrUE"; "TRue"; "TRuE"; "TRUe"; "TRUE" ].
Proof.
  split.
  - intros H. apply is_debug_spellings in H
      as (c1 & c2 & c3 & c4 & -> & H1 & H2 & H3 & H4).
    destruct H1, H2, H3, H4; subst; in_list.
  - intros H. unfold is_debug. cbn [In] in H.
    repeat destruct H as [<-|H]; try reflexivity. contradiction.
Qed.

(** ** The further properties on sample inputs *)

Example fallback_configured :
  configure decimal_int fallback_world = Valid fallback_settings.
Proof. reflexivity. Qed.

Lemma string_fields_supplied_or_default_witness :
  environment fallback_settings = "production"
  /\ api_version fallback_settings = "v1".
Proof.
  destruct (string_fields_supplied_or_default decimal_int
              (snd (import_config fallback_world))
              (fst (import_config fallback_world))
              fallback_settings eq_refl) as (_ & He & _ & Ha & _).
  split; [exact He | exact Ha].
Defined.

Lemma optional_fields_as_supplied_witness :
  supabase_db_url fallback_settings = None.
Proof.
  exact (proj1 (optional_fields_as_supplied decimal_int
                  (snd (import_config fallback_world))
                  (fst (import_config fallback_world))
                  fallback_settings eq_refl)).
Defined.

Lemma int_fields_parsed_or_default_witness :
  int_field_ok decimal_int (fst (import_config fallback_world))
    "media_thumbnail_size" 400 256
  /\ int_field_ok decimal_int (fst (import_config fallback_world))
       "media_max_file_size_mb" 50 50.
Proof.
  destruct (int_fields_parsed_or_default decimal_int
              (snd (import_config fallback_world))
              (fst (import_config fallback_world))
              fallback_settings eq_refl) as (_ & _ & Hmax & _ & Hthumb & _).
  split; [exact Hthumb | exact Hmax].
Defined.

Lemma int_field_not_parsed_rejected_witness :
  exists errors,
    Settings_init decimal_int (snd (import_config bad_int_world))
      (fst (import_config bad_int_world)) = Invalid errors
    /\ In ("media_thumbnail_size", int_parsing) errors.
Proof.
  assert (Hlarge : forall z, decimal_int "large" <> IntValue z)
    by (intros z; vm_compute; discriminate).
  destruct (int_field_not_parsed_rejected decimal_int
              (snd (import_config bad_int_world))
              (fst (import_config bad_int_world))
              "media_thumbnail_size" "large"
              (or_intror (or_intror (or_intror (or_intror
                 (or_introl eq_refl)))))
              eq_refl Hlarge)
    as (errors & Hinit & [[_ Hin]|[Hsize _]]).
  - exists errors. split; [exact Hinit | exact Hin].
  - vm_compute in Hsize. discriminate Hsize.
Defined.

Example huge_int_rejected :
  configure decimal_int huge_int_world
  = Invalid [("media_thumbnail_size", int_parsing_size)].
Proof. vm_compute. reflexivity. Qed.

Lemma unknown_variable_ignored_witness :
  Settings_init decimal_int (snd (import_config fallback_world))
    {| environ := [("CORS_ORIGINS", "*")] ++ ("PATH", "/usr/bin")
                  :: required_env;
       files := files_of [] |}
  = Settings_init decimal_int (snd (import_config fallback_world))
      {| environ := [("CORS_ORIGINS", "*")] ++ required_env;
         files := files_of [] |}.
Proof.
  apply unknown_variable_ignored; [|exact I].
  cbn [PyStr.lower In field_names].
  intros H. repeat destruct H as [H|H]; try discriminate H. exact H.
Defined.

Lemma variable_name_case_insensitive_witness :
  field_raw {| environ := [("API_VERSION", "v1")] ++ ("Api_Version", "v2")
                          :: [("DEBUG", "true")];
               files := files_of [] |} "api_version" = Some "v2".
Proof.
  apply variable_name_case_insensitive; [reflexivity|].
  intros x [<-|[]]. discriminate.
Defined.

Lemma configure_needs_cors_origins_witness :
  field_raw (fst (import_config fallback_world)) "cors_origins"
  = Some "https://timelesslove.ai".
Proof.
  exact (configure_needs_cors_origins decimal_int fallback_world
           fallback_settings eq_refl).
Defined.

Lemma is_debug_needs_source_witness :
  exists v, field_raw (fst (import_config fallback_world)) "debug" = Some v
            /\ PyStr.lower v = "true".
Proof.
  exact (is_debug_needs_source decimal_int
           (snd (import_config fallback_world))
           (fst (import_config fallback_world))
           fallback_settings eq_refl eq_refl).
Defined.

Lemma get_settings_idempotent_witness :
  exists g',
    get_settings decimal_int (fst (import_config fallback_world))
      (snd (import_config fallback_world)) = (Valid fallback_settings, g')
    /\ get_settings decimal_int required_only_world g'
       = (Valid fallback_settings, g').
Proof.
  eexists. split; [reflexivity|].
  exact (proj2 (proj2 (get_settings_idempotent decimal_int
           (fst (import_config fallback_world))
           (snd (import_config fallback_world))
           fallback_settings _ required_only_world eq_refl))).
Defined.

Lemma get_settings_retries_after_failure_witness :
  exists g',
    get_settings decimal_int (fst (import_config fallback_world))
      (snd (import_config missing_two_world))
    = (Valid fallback_settings, g').
Proof.
  eexists.
  exact (get_settings_retries_after_failure decimal_int
           (fst (import_config missing_two_world))
           (snd (import_config missing_two_world)) _ _
           (fst (import_config fallback_world)) fallback_settings
           eq_refl eq_refl).
Defined.

Lemma health_raises_without_settings_witness :
  health decimal_int (fst (import_config required_only_world))
    (snd (import_config required_only_world)) Returned
  = (ValidationError [("cors_origins", string_type)],
     snd (import_config required_only_world)).
Proof.
  exact (health_raises_without_settings decimal_int
           (fst (import_config required_only_world))
           (snd (import_config required_only_world))
           [("cors_origins", string_type)] Returned eq_refl eq_refl).
Defined.

Lemma health_reuses_settings_witness :
  Dict.get "environment"
    [ ("status", "healthy"); ("version", "v1");
      ("environment", "production"); ("database", "disconnected");
      ("database_error", "connection refused") ]
  = Dict.get "environment"
      [ ("status", "healthy"); ("version", "v1");
        ("environment", "production"); ("database", "connected") ].
Proof.
  refine (proj2 (proj2 (health_reuses_settings decimal_int
            (fst (import_config fallback_world))
            (snd (import_config fallback_world)) Returned _ _
            required_only_world (Raised connection_error) _ _
            eq_refl eq_refl))).
Defined.

Lemma cors_origins_list_trimmed_witness :
  count_char "," "b" = 0
  /\ starts_with_space "b" = false
  /\ ends_with_space "b" = false.
Proof.
  apply (cors_origins_list_trimmed production_settings "b").
  cbn. tauto.
Defined.

Lemma cors_origins_list_join_witness :
  String.concat "," (cors_origins_list fallback_settings)
  = "https://timelesslove.ai".
Proof.
  exact (cors_origins_list_join fallback_settings eq_refl).
Defined.
